(** * Verde walkthrough notebook: the query helper and its callers

    A shallow embedding of the code cells of
    [verde-examples/walkthrough.ipynb]: the credential lookup, the header
    dictionary, [check_results], the three query cells and the literal
    subscript chains that read the answers.

    Conventions of the embedding.
    - A Python value obtained from [result.json()] is a [json] tree.  A
      Python [int] is a [Z].  The notebook never computes with a [float]; it
      only tests one for truth and prints it, so a float is carried as its
      [repr] text (the shortest decimal that reads back as the same float).
    - A Python [str] is a [string]; one [ascii] stands for one character
      (code points below 256).
    - A dict that comes from JSON keeps insertion order and has string keys:
      an association list, looked up from the left.
    - Standard output is the list of the texts handed to [print], one entry
      per call.  An exception ends the computation and keeps what was
      printed before it. *)

From Stdlib Require Import ZArith Ascii String List.
From stdpp Require Import base decidable option list strings pretty gmap.

Local Open Scope Z_scope.

(** ** Values *)

#[local] Unset Elimination Schemes.
Inductive json : Type :=
| JNull
| JBool (b : bool)
| JInt (n : Z)
| JFloat (shown : string)
| JStr (s : string)
| JList (items : list json)
| JDict (entries : list (string * json)).
#[local] Set Elimination Schemes.

(** What goes between the brackets of a subscript: a string or an int. *)
Inductive index : Type :=
| Key (k : string)
| Idx (i : Z).

(** ** Exceptions and the two effect layers *)

Inductive exn : Type :=
| Exception (msg : string)
| KeyError (k : index)
| IndexError
| TypeError
| AttributeError
| JSONDecodeError
| ConnectionError.

Inductive outcome (A : Type) : Type :=
| Return (a : A)
| Raise (e : exn).
Arguments Return {A} a.
Arguments Raise {A} e.

#[global] Instance outcome_ret : MRet outcome := @Return.
#[global] Instance outcome_bind : MBind outcome := λ A B f m,
  match m with
  | Return a => f a
  | Raise e => Raise e
  end.

(** A computation that may print: the printed texts, then how it ended. *)
Definition py (A : Type) : Type := (list string * outcome A)%type.

#[global] Instance py_ret : MRet py := λ A a, ([], Return a).
#[global] Instance py_bind : MBind py := λ A B f m,
  match m with
  | (out, Return a) => let '(out', r) := f a in (out ++ out', r)
  | (out, Raise e) => (out, Raise e)
  end.

Definition lift {A} (r : outcome A) : py A := ([], r).
Definition print (s : string) : py unit := ([s], Return tt).
Definition raise {A} (e : exn) : py A := ([], Raise e).

Definition stdout {A} (m : py A) : list string := m.1.
Definition result_of {A} (m : py A) : outcome A := m.2.

Fixpoint for_each {A} (body : A → py unit) (l : list A) : py unit :=
  match l with
  | [] => mret tt
  | x :: l' => body x ;; for_each body l'
  end.

Fixpoint collect {A B} (f : A → outcome B) (l : list A) : outcome (list B) :=
  match l with
  | [] => mret []
  | x :: l' => y ← f x; ys ← collect f l'; mret (y :: ys)
  end.

(** ** Python built-ins on JSON values *)

Definition chr (n : N) : ascii := ascii_of_N n.
Definition newline : string := String (chr 10) "".

Fixpoint dict_lookup (k : string) (d : list (string * json)) : option json :=
  match d with
  | [] => None
  | (k', v) :: d' => if decide (k = k') then Some v else dict_lookup k d'
  end.

(** [n] as a position in a sequence of length [len], negative from the end. *)
Definition position (len : nat) (n : Z) : option nat :=
  if decide (0 ≤ n < Z.of_nat len) then Some (Z.to_nat n)
  else if decide (- Z.of_nat len ≤ n < 0) then Some (Z.to_nat (Z.of_nat len + n))
  else None.

Definition chars (s : string) : list json :=
  (λ c, JStr (String c "")) <$> list_ascii_of_string s.

(** [v[i]] *)
Definition getitem (v : json) (i : index) : outcome json :=
  match v, i with
  | JDict d, Key k =>
      match dict_lookup k d with
      | Some x => Return x
      | None => Raise (KeyError i)
      end
  | JDict _, Idx _ => Raise (KeyError i)
  | JList l, Idx n =>
      match position (length l) n ≫= (l !!.) with
      | Some x => Return x
      | None => Raise IndexError
      end
  | JStr s, Idx n =>
      match position (String.length s) n ≫= (chars s !!.) with
      | Some x => Return x
      | None => Raise IndexError
      end
  | _, _ => Raise TypeError
  end.

(** [v.get(k, default)] *)
Definition get (v : json) (k : string) (fallback : json) : outcome json :=
  match v with
  | JDict d => Return (default fallback (dict_lookup k d))
  | _ => Raise AttributeError
  end.

(** [bool(v)] *)
Definition truthy (v : json) : bool :=
  match v with
  | JNull => false
  | JBool b => b
  | JInt n => bool_decide (n ≠ 0)
  | JFloat r => bool_decide (r ≠ "0.0" ∧ r ≠ "-0.0")
  | JStr s => bool_decide (s ≠ "")
  | JList l => bool_decide (l ≠ [])
  | JDict d => bool_decide (d ≠ [])
  end.

(** [iter(v)], run to the end: what a [for] loop or a comprehension visits. *)
Definition iterate (v : json) : outcome (list json) :=
  match v with
  | JList l => Return l
  | JDict d => Return ((λ kv, JStr kv.1) <$> d)
  | JStr s => Return (chars s)
  | _ => Raise TypeError
  end.

(** [len(v)] *)
Definition len (v : json) : outcome Z :=
  match v with
  | JList l => Return (Z.of_nat (length l))
  | JDict d => Return (Z.of_nat (length d))
  | JStr s => Return (Z.of_nat (String.length s))
  | _ => Raise TypeError
  end.

(** [sep.join(v)]: every item has to be a [str]. *)
Definition as_str (v : json) : outcome string :=
  match v with
  | JStr s => Return s
  | _ => Raise TypeError
  end.

Definition join (sep : string) (v : json) : outcome string :=
  items ← iterate v;
  parts ← collect as_str items;
  mret (String.concat sep parts).

(** *** [repr] and [str] *)

Definition quote1 : ascii := chr 39.
Definition quote2 : ascii := chr 34.
Definition backslash : ascii := chr 92.

Definition printable (c : ascii) : bool :=
  let n := N_of_ascii c in
  ((32 <=? n) && (n <? 127) || (161 <=? n) && negb (n =? 173))%N.

Definition hex_digit (n : N) : ascii :=
  default "0"%char (list_ascii_of_string "0123456789abcdef" !! N.to_nat n).

Definition escape (quote c : ascii) : string :=
  if decide (c = quote ∨ c = backslash) then String backslash (String c "")
  else if decide (c = chr 9) then String backslash "t"
  else if decide (c = chr 10) then String backslash "n"
  else if decide (c = chr 13) then String backslash "r"
  else if printable c then String c ""
  else let n := N_of_ascii c in
       String backslash (String "x" (String (hex_digit (n / 16)%N)
                                      (String (hex_digit (n mod 16)%N) ""))).

Definition repr_str (s : string) : string :=
  let cs := list_ascii_of_string s in
  let quote :=
    if bool_decide (quote1 ∈ cs) && negb (bool_decide (quote2 ∈ cs))
    then quote2 else quote1 in
  String quote (String.concat "" (escape quote <$> cs)) +:+ String quote "".

Fixpoint repr (v : json) : string :=
  match v with
  | JNull => "None"
  | JBool true => "True"
  | JBool false => "False"
  | JInt n => pretty n
  | JFloat r => r
  | JStr s => repr_str s
  | JList l => "[" +:+ String.concat ", " (map repr l) +:+ "]"
  | JDict d =>
      "{" +:+ String.concat ", "
                (map (λ '(k, x), repr_str k +:+ ": " +:+ repr x) d) +:+ "}"
  end.

(** [str(v)], which is also what [{v}] yields inside an f-string. *)
Definition str (v : json) : string :=
  match v with
  | JStr s => s
  | _ => repr v
  end.

(** ** The transport, as far as the notebook sees it *)

(** What [requests.post] hands back: [parsed] is what [result.json()]
    makes of the body, [None] when the body is not JSON. *)
Record response : Type := {
  status_code : Z;
  text : string;
  parsed : option json
}.

(** [result.json()] *)
Definition response_json (result : response) : outcome json :=
  match parsed result with
  | Some v => Return v
  | None => Raise JSONDecodeError
  end.

(** The arguments of one [requests.post(url, headers=..., json=...)]. *)
Record request : Type := {
  url : string;
  headers : gmap string string;
  payload : json
}.

(** ** Cell 2: endpoint, subscription key, headers *)

Definition GRAPHQL_ENDPOINT : string := "https://api.agrimetrics.co.uk/graphql/v1/".

Definition whitespace (c : ascii) : bool :=
  let n := N_of_ascii c in
  ((9 <=? n) && (n <=? 13) || (28 <=? n) && (n <=? 32)
   || (n =? 133) || (n =? 160))%N.

Fixpoint lstrip (cs : list ascii) : list ascii :=
  match cs with
  | c :: cs' => if whitespace c then lstrip cs' else cs
  | [] => []
  end.

(** [s.strip()] *)
Definition strip (s : string) : string :=
  string_of_list_ascii (rev (lstrip (rev (lstrip (list_ascii_of_string s))))).

Definition key_prompt : string := "Query API Subscription Key: ".

(** The first statement of the cell.  [environ] is [os.environ]; [input]
    answers a prompt with the line the user types.  The second component
    lists the prompts that were shown. *)
Definition API_KEY (environ : gmap string string) (input : string → string)
  : string * list string :=
  match environ !! "API_KEY" with
  | Some value => (value, [])
  | None => (strip (input key_prompt), [key_prompt])
  end.

Definition common_headers (api_key : string) : gmap string string :=
  <["Content-Type" := "application/json"]>
  (<["Accept" := "application/json"]>
  (<["OCP-APIM-Subscription-Key" := api_key]> ∅)).

(** ** Cell 3: [check_results] *)

Definition location_text (loc : json) : outcome string :=
  line ← getitem loc (Key "line");
  column ← getitem loc (Key "column");
  mret ("line " +:+ str line +:+ ", col " +:+ str column).

(** The body of the [for err in errors] loop. *)
Definition report (err : json) : py unit :=
  message ← lift (getitem err (Key "message"));
  print (str message +:+ ":") ;;
  locations ← lift (getitem err (Key "locations"));
  locs ← lift (iterate locations);
  texts ← lift (collect location_text locs);
  print ("  at " +:+ String.concat " and " texts) ;;
  path ← lift (getitem err (Key "path"));
  dotted ← lift (join "." path);
  print ("  path " +:+ dotted) ;;
  extensions ← lift (getitem err (Key "extensions"));
  print ("  " +:+ str extensions).

Definition transport_message (code : Z) (body : string) : string :=
  "Request failed with code " +:+ pretty code +:+ "." +:+ newline +:+ body.

Definition graphql_message (count : Z) : string :=
  "GraphQL reported " +:+ pretty count +:+ " errors".

Definition check_results (result : response) : py unit :=
  if bool_decide (status_code result ≠ 200) then
    raise (Exception (transport_message (status_code result) (text result)))
  else
    body ← lift (response_json result);
    errors ← lift (get body "errors" (JList []));
    if truthy errors then
      items ← lift (iterate errors);
      for_each report items ;;
      count ← lift (len errors);
      raise (Exception (graphql_message count))
    else
      mret tt.

(** ** Cells 4 to 13: the three calls *)

Definition cost_variables : json :=
  JDict [("fieldId", JStr "https://data.agrimetrics.co.uk/fields/-Dzkwq1lmP0VkSfEcpSqsQ");
         ("season", JStr "SEP2019TOSEP2020");
         ("layerType", JStr "CROP_SPECIFIC");
         ("cropType", JStr "GRASS")].

Definition cost_query : string :=
"
    query RegistrationCostQuery(
        $fieldId: ID!,
        $layerType: LayerType!,
        $season: CropSeason!,
        $cropType: ObservationCropType
        ) 
    {
      account {
        premiumData {
          cropObservationRegistrationsCost(registrations: {
            fieldId: $fieldId, 
            layerType: $layerType , 
            season: $season, 
            cropType: $cropType}) {
            cost
          }
        }
      }
    }
".

Definition cost_query_object : json :=
  JDict [("query", JStr cost_query);
         ("variables", cost_variables);
         ("operationName", JStr "RegistrationCostQuery")].

Definition registration_query : string :=
"
    mutation RegistrationQuery($fieldId: ID!,
        $layerType: LayerType!,
        $season: CropSeason!,
        $cropType: ObservationCropType) {
      account {
        premiumData {
          addCropObservationRegistrations(registrations: {
            fieldId: $fieldId, 
            layerType: $layerType, 
            season: $season, 
            cropType: $cropType}) {
            cost
            id
          }
        }
      }
    }
".

Definition registration_query_object : json :=
  JDict [("query", JStr registration_query);
         ("variables", cost_variables);
         ("operationName", JStr "RegistrationQuery")].

Definition verde_data_query : string :=
"
query getFieldIdAtLocation($fieldId: [ID!]!) {
  fields(where: {id: {EQ: $fieldId}}) {
    cropObservations {
      brownVegetationCoverFraction {
        unit
        median
        mean
      }
    }
  }
}

".

Definition data_query_object : json :=
  JDict [("query", JStr verde_data_query);
         ("variables", cost_variables);
         ("operationName", JStr "getFieldIdAtLocation")].

(** [requests.post(GRAPHQL_ENDPOINT, headers=common_headers, json=query_object)],
    seen from the outside: the request that leaves. *)
Definition post_call (api_key : string) (query_object : json) : request :=
  {| url := GRAPHQL_ENDPOINT;
     headers := common_headers api_key;
     payload := query_object |}.

(** The requests of cells 6, 10 and 13, in the order of the notebook. *)
Definition calls (api_key : string) : list request :=
  [post_call api_key cost_query_object;
   post_call api_key registration_query_object;
   post_call api_key data_query_object].

(** The two statements that follow each call:
    [check_results(result)] and [data = result.json()["data"]]. *)
Definition read_data (result : response) : py json :=
  check_results result ;;
  body ← lift (response_json result);
  lift (getitem body (Key "data")).

(** One whole cell, for a transport [post] that answers or raises. *)
Definition run_query (post : request → outcome response)
    (api_key : string) (query_object : json) : py json :=
  result ← lift (post (post_call api_key query_object));
  read_data result.

(** ** Cells 7, 11 and 14: reading the answers *)

(** [v[i1][i2]...[in]] *)
Definition subscripts (v : json) (path : list index) : outcome json :=
  foldl (λ acc i, acc ≫= (λ x, getitem x i)) (Return v) path.

Definition cost (data : json) : outcome json :=
  subscripts data [Key "account"; Key "premiumData";
                   Key "cropObservationRegistrationsCost"; Idx 0; Key "cost"].

Definition registrationID (data : json) : outcome json :=
  subscripts data [Key "account"; Key "premiumData";
                   Key "addCropObservationRegistrations"; Idx 0; Key "id"].

Definition brown_vegetation (data : json) : outcome json :=
  first_field ← subscripts data [Key "fields"; Idx 0];
  subscripts first_field [Key "cropObservations"; Key "brownVegetationCoverFraction"].

(** A table: the column names and, per row, one cell per column.  A cell
    is empty ([None]) where the row's object has no such key. *)
Record table : Type := {
  columns : list string;
  rows : list (list (option json))
}.

Definition as_dict (v : json) : option (list (string * json)) :=
  match v with
  | JDict d => Some d
  | _ => None
  end.

(** The keys of all objects, each once, in the order of first appearance. *)
Definition all_keys (objects : list (list (string * json))) : list string :=
  foldl (λ seen o, seen ++ filter (λ k, k ∉ seen) o.*1) [] objects.

(** Modelled from the spec: the table constructor [pd.DataFrame] belongs to
    the pandas package, which is not part of the sources.  The spec (4.3)
    says of an array of uniform objects that each array element becomes a
    row and each object key becomes a column; the value is defined for an
    array of objects and is [None] for anything else. *)
Definition DataFrame (v : json) : option table :=
  match v with
  | JList items =>
      objects ← mapM as_dict items;
      let cols := all_keys objects in
      Some {| columns := cols;
              rows := (λ o, (λ k, dict_lookup k o) <$> cols) <$> objects |}
  | _ => None
  end.

Definition brown_vegetation_df (data : json) : outcome (option table) :=
  rows ← brown_vegetation data;
  mret (DataFrame rows).

(** ** Inputs of the spec's scenarios *)

Definition ok_response (body : json) : response :=
  {| status_code := 200; text := ""; parsed := Some body |}.

Definition scenario_A : json :=
  JDict [("account",
          JDict [("premiumData",
                  JDict [("cropObservationRegistrationsCost",
                          JList [JDict [("cost", JInt 0)]])])])].

Definition error_B : json :=
  JDict [("message", JStr "bad field");
         ("locations", JList [JDict [("line", JInt 3); ("column", JInt 5)]]);
         ("path", JList [JStr "fields"; JInt 0; JStr "id"]);
         ("extensions", JDict [("code", JStr "INVALID")])].

Definition scenario_B : response :=
  ok_response (JDict [("errors", JList [error_B])]).

Definition scenario_C : response :=
  {| status_code := 403; text := "Forbidden"; parsed := None |}.

Definition scenario_D : json :=
  JList [JDict [("unit", JStr "u1"); ("median", JFloat "0.1"); ("mean", JFloat "0.2")];
         JDict [("unit", JStr "u1"); ("median", JFloat "0.3"); ("mean", JFloat "0.4")]].

(** ** Well-formed error entries and their rendering *)

(** An entry of [errors] as the GraphQL convention describes it.  The
    message, the line and column numbers and the extensions may be any
    JSON value; every path segment is a string. *)
Record graphql_error : Type := {
  message : json;
  locations : list (json * json);
  path : list string;
  extensions : json
}.

Definition is_location (loc : json) (lc : json * json) : Prop :=
  ∃ d, loc = JDict d
       ∧ dict_lookup "line" d = Some lc.1
       ∧ dict_lookup "column" d = Some lc.2.

Definition describes (e : graphql_error) (err : json) : Prop :=
  ∃ d ls, err = JDict d
          ∧ dict_lookup "message" d = Some (message e)
          ∧ dict_lookup "locations" d = Some (JList ls)
          ∧ Forall2 is_location ls (locations e)
          ∧ dict_lookup "path" d = Some (JList (JStr <$> path e))
          ∧ dict_lookup "extensions" d = Some (extensions e).

Definition location_line (lc : json * json) : string :=
  "line " +:+ str lc.1 +:+ ", col " +:+ str lc.2.

Definition message_line (m : json) : string := str m +:+ ":".
Definition at_line (locs : list (json * json)) : string :=
  "  at " +:+ String.concat " and " (location_line <$> locs).
Definition path_line (p : list string) : string :=
  "  path " +:+ String.concat "." p.
Definition extensions_line (x : json) : string := "  " +:+ str x.

(** The four lines printed for a well-formed entry. *)
Definition rendering (e : graphql_error) : list string :=
  [message_line (message e); at_line (locations e);
   path_line (path e); extensions_line (extensions e)].

(** Where the loop body stops on an entry [d] that lacks a key: the key
    whose subscript raises, and the lines printed for [d] before that. *)
Inductive stops_at (d : list (string * json)) : string → list string → Prop :=
| stops_at_locations m :
    dict_lookup "message" d = Some m →
    dict_lookup "locations" d = None →
    stops_at d "locations" [message_line m]
| stops_at_path m ls locs :
    dict_lookup "message" d = Some m →
    dict_lookup "locations" d = Some (JList ls) →
    Forall2 is_location ls locs →
    dict_lookup "path" d = None →
    stops_at d "path" [message_line m; at_line locs]
| stops_at_extensions m ls locs p :
    dict_lookup "message" d = Some m →
    dict_lookup "locations" d = Some (JList ls) →
    Forall2 is_location ls locs →
    dict_lookup "path" d = Some (JList (JStr <$> p)) →
    dict_lookup "extensions" d = None →
    stops_at d "extensions" [message_line m; at_line locs; path_line p].

(** ** Predicates used by the statements *)

(** The exceptions a failing subscript, iteration or [join] can raise. *)
Definition lookup_failure (e : exn) : Prop :=
  match e with
  | KeyError _ | TypeError => True
  | _ => False
  end.

Definition lacks_key (d : list (string * json)) : Prop :=
  dict_lookup "locations" d = None
  ∨ dict_lookup "path" d = None
  ∨ dict_lookup "extensions" d = None.

Definition complete_entry (v : json) : Prop :=
  ∃ d, v = JDict d ∧ ¬ lacks_key d.

Fixpoint dotless (s : string) : Prop :=
  match s with
  | EmptyString => True
  | String c s' => c ≠ "."%char ∧ dotless s'
  end.

(** ** Further inputs *)

Definition entry_two_places : json :=
  JDict [("message", JStr "bad field");
         ("locations", JList [JDict [("line", JInt 3); ("column", JInt 5)];
                              JDict [("line", JInt 4); ("column", JInt 1)]]);
         ("path", JList [JStr "fields"; JStr "id"]);
         ("extensions", JDict [("code", JStr "INVALID")])].

Definition two_places : graphql_error :=
  {| message := JStr "bad field";
     locations := [(JInt 3, JInt 5); (JInt 4, JInt 1)];
     path := ["fields"; "id"];
     extensions := JDict [("code", JStr "INVALID")] |}.

(** An entry that carries only a message, as a GraphQL server may send. *)
Definition message_only : response :=
  ok_response (JDict [("errors", JList [JDict [("message", JStr "bad field")]])]).

Definition entry_without_path : list (string * json) :=
  [("message", JStr "bad field");
   ("locations", JList [JDict [("line", JInt 3); ("column", JInt 5)]]);
   ("extensions", JDict [("code", JStr "INVALID")])].

(** The data of a query answer whose first field carries the array of
    scenario D. *)
Definition data_D : json :=
  JDict [("fields",
          JList [JDict [("cropObservations",
                         JDict [("brownVegetationCoverFraction", scenario_D)])]])].

(** ** Further predicates *)

(** The body has no [errors], or a value there that counts as false. *)
Definition no_errors (body : list (string * json)) : Prop :=
  truthy (default (JList []) (dict_lookup "errors" body)) = false.

Definition is_str (v : json) : Prop := ∃ s, v = JStr s.

(** A location object without its [line], or with it and without its
    [column]: the key on which the subscript fails. *)
Definition missing_coordinate (l : list (string * json)) (k : string) : Prop :=
  (dict_lookup "line" l = None ∧ k = "line")
  ∨ (is_Some (dict_lookup "line" l) ∧ dict_lookup "column" l = None ∧ k = "column").

(** No whitespace character at either end. *)
Definition trimmed (cs : list ascii) : Prop :=
  (∀ c, head cs = Some c → whitespace c = false)
  ∧ (∀ c, last cs = Some c → whitespace c = false).

(** ** Proof steps shared by the lemmas on failures *)

Create HintDb failures.

(** Split on the outcome [r] of a step of a pure computation; a raised
    exception is handed to the lemmas collected in [failures]. *)
Ltac outcome_case r H :=
  destruct r eqn:H; cbn [mbind outcome_bind];
  [|intros [= <-]; eauto with failures].

(** ** The built-ins on small inputs *)

Example repr_nested :
  repr (JDict [("code", JStr "INVALID"); ("n", JList [JInt (-3); JNull; JBool true])])
  = "{'code': 'INVALID', 'n': [-3, None, True]}".
Proof. vm_compute. reflexivity. Qed.

Example repr_quotes :
  repr_str ("it's" +:+ newline) = String quote2 ("it's" +:+ String backslash "n" +:+ String quote2 "").
Proof. vm_compute. reflexivity. Qed.

(** ** Properties of the effect layers *)

Lemma py_bind_return {A B} (out : list string) (a : A) (f : A → py B) :
  (out, Return a) ≫= f = (out ++ (f a).1, (f a).2).
Proof. unfold mbind, py_bind. by destruct (f a). Qed.

Lemma py_bind_raise {A B} (out : list string) (e : exn) (f : A → py B) :
  (out, Raise e) ≫= f = (out, Raise e).
Proof. reflexivity. Qed.

Lemma py_ret_bind {A B} (a : A) (f : A → py B) : mret a ≫= f = f a.
Proof. unfold mret, py_ret, mbind, py_bind. by destruct (f a). Qed.

Lemma py_nil_bind {A B} (a : A) (f : A → py B) : ([], Return a) ≫= f = f a.
Proof. apply py_ret_bind. Qed.

Lemma py_bind_assoc {A B C} (m : py A) (f : A → py B) (g : B → py C) :
  (m ≫= f) ≫= g = m ≫= (λ x, f x ≫= g).
Proof.
  destruct m as [out [a|e]]; [|done].
  rewrite !py_bind_return.
  destruct (f a) as [out1 [b|e1]]; cbn [fst snd]; [|done].
  rewrite !py_bind_return. cbn [fst snd]. by rewrite app_assoc.
Qed.

Lemma lift_bind {A B} (a : A) (f : A → py B) : lift (Return a) ≫= f = f a.
Proof. apply py_ret_bind. Qed.

Lemma lift_raise {A B} (e : exn) (f : A → py B) :
  lift (Raise e) ≫= f = ([], Raise e).
Proof. reflexivity. Qed.

Lemma print_bind {B} (s : string) (m : py B) :
  (print s ;; m) = (s :: m.1, m.2).
Proof. unfold print. by rewrite py_bind_return. Qed.

Lemma for_each_app {A} (body : A → py unit) (l1 l2 : list A) :
  for_each body (l1 ++ l2) = (for_each body l1 ;; for_each body l2).
Proof.
  induction l1 as [|x l1 IH]; cbn [for_each app].
  - by rewrite py_ret_bind.
  - by rewrite IH, py_bind_assoc.
Qed.

(** ** The loop body on well-formed and on incomplete entries *)

Lemma location_text_ok loc lc :
  is_location loc lc → location_text loc = Return (location_line lc).
Proof.
  intros (d & -> & Hline & Hcol). unfold location_text, getitem.
  rewrite Hline. cbn [mbind outcome_bind]. by rewrite Hcol.
Qed.

Lemma collect_location_text ls locs :
  Forall2 is_location ls locs →
  collect location_text ls = Return (location_line <$> locs).
Proof.
  induction 1 as [|loc lc ls locs Hloc _ IH]; [done|].
  cbn [collect]. rewrite (location_text_ok _ _ Hloc), IH. done.
Qed.

Lemma collect_as_str (p : list string) : collect as_str (JStr <$> p) = Return p.
Proof. induction p as [|s p IH]; [done|]. cbn [collect fmap list_fmap as_str]. by rewrite IH. Qed.

Lemma join_strings sep (p : list string) :
  join sep (JList (JStr <$> p)) = Return (String.concat sep p).
Proof. unfold join, iterate. cbn [mbind outcome_bind]. by rewrite collect_as_str. Qed.

Lemma report_describes e err :
  describes e err → report err = (rendering e, Return tt).
Proof.
  intros (d & ls & -> & Hm & Hl & Hlocs & Hp & Hx).
  unfold report, getitem. rewrite Hm, Hl, Hp, Hx.
  rewrite lift_bind, print_bind.
  rewrite lift_bind. unfold iterate. rewrite lift_bind.
  rewrite (collect_location_text _ _ Hlocs), lift_bind, print_bind.
  rewrite lift_bind, join_strings, lift_bind, print_bind, lift_bind.
  reflexivity.
Qed.

Lemma for_each_report errs entries :
  Forall2 describes entries errs →
  for_each report errs = (concat (rendering <$> entries), Return tt).
Proof.
  induction 1 as [|e err entries errs He _ IH]; [done|].
  cbn [for_each]. rewrite (report_describes _ _ He), IH, py_bind_return. done.
Qed.

Lemma report_stops d k shown :
  stops_at d k shown → report (JDict d) = (shown, Raise (KeyError (Key k))).
Proof.
  destruct 1 as [m Hm Hl|m ls locs Hm Hl Hlocs Hp|m ls locs p Hm Hl Hlocs Hp Hx];
    unfold report, getitem; rewrite Hm, Hl, ?Hp, ?Hx;
    rewrite lift_bind, print_bind; [done|..];
    rewrite lift_bind; unfold iterate; rewrite lift_bind;
    rewrite (collect_location_text _ _ Hlocs), lift_bind, print_bind; [done|].
  rewrite lift_bind, join_strings, lift_bind, print_bind. done.
Qed.

Lemma getitem_key_raise v k e :
  getitem v (Key k) = Raise e → lookup_failure e.
Proof.
  destruct v; cbn [getitem]; try (intros [= <-]; exact I).
  destruct (dict_lookup k entries); [done|]. intros [= <-]. exact I.
Qed.

Lemma iterate_raise v e : iterate v = Raise e → lookup_failure e.
Proof. destruct v; cbn [iterate]; try done; intros [= <-]; exact I. Qed.

#[local] Hint Resolve getitem_key_raise iterate_raise : failures.

Lemma location_text_raise loc e :
  location_text loc = Raise e → lookup_failure e.
Proof.
  unfold location_text.
  outcome_case (getitem loc (Key "line")) H1.
  outcome_case (getitem loc (Key "column")) H2.
  done.
Qed.

#[local] Hint Resolve location_text_raise : failures.

Lemma collect_location_text_raise ls e :
  collect location_text ls = Raise e → lookup_failure e.
Proof.
  induction ls as [|loc ls IH]; [done|]. cbn [collect].
  outcome_case (location_text loc) H1.
  outcome_case (collect location_text ls) H2.
  done.
Qed.

Lemma collect_as_str_raise items e :
  collect as_str items = Raise e → lookup_failure e.
Proof.
  induction items as [|v items IH]; [done|]. cbn [collect].
  destruct v; cbn [as_str mbind outcome_bind]; try (by intros [= <-]).
  outcome_case (collect as_str items) H.
  done.
Qed.

#[local] Hint Resolve collect_location_text_raise collect_as_str_raise : failures.

Lemma join_raise sep v e : join sep v = Raise e → lookup_failure e.
Proof.
  unfold join.
  outcome_case (iterate v) H1.
  outcome_case (collect as_str a) H2.
  done.
Qed.

#[local] Hint Resolve join_raise : failures.

Lemma result_of_bind {A B} (m : py A) (f : A → py B) :
  result_of (m ≫= f)
  = match result_of m with
    | Return a => result_of (f a)
    | Raise e => Raise e
    end.
Proof.
  destruct m as [out [a|e]]; [|done].
  rewrite py_bind_return. reflexivity.
Qed.

Lemma result_of_lift {A} (r : outcome A) : result_of (lift r) = r.
Proof. reflexivity. Qed.

Lemma result_of_print s : result_of (print s) = Return tt.
Proof. reflexivity. Qed.

(** The same for the next lifted step of a printing computation, looking
    only at how it ends. *)
Ltac after_lift H :=
  rewrite result_of_bind, result_of_lift;
  lazymatch goal with
  | |- match (match ?r with _ => _ end) with _ => _ end =>
      destruct r eqn:H; [|eauto with failures]
  end.

Ltac after_print := rewrite result_of_bind, result_of_print.

(** However an entry looks, the loop body either raises a lookup failure
    or the entry had all three keys. *)
Lemma report_result v :
  match result_of (report v) with
  | Raise e => lookup_failure e
  | Return _ => complete_entry v
  end.
Proof.
  unfold report.
  after_lift Hm. after_print.
  after_lift Hl. after_lift Hls. after_lift Ht. after_print.
  after_lift Hp. after_lift Hj. after_print.
  after_lift Hx. rewrite result_of_print.
  destruct v; try discriminate Hm. exists entries. split; [done|].
  cbn [getitem] in Hl, Hp, Hx.
  intros [H|[H|H]]; rewrite H in *; discriminate.
Qed.

Lemma for_each_report_result errs :
  match result_of (for_each report errs) with
  | Raise e => lookup_failure e
  | Return _ => Forall complete_entry errs
  end.
Proof.
  induction errs as [|v errs IH]; cbn [for_each].
  - constructor.
  - rewrite result_of_bind. pose proof (report_result v) as Hv.
    destruct (result_of (report v)); [|done].
    destruct (result_of (for_each report errs)); [|done].
    by constructor.
Qed.

(** ** [check_results] by cases *)

Lemma check_results_not_200 result :
  status_code result ≠ 200 →
  check_results result
  = ([], Raise (Exception (transport_message (status_code result) (text result)))).
Proof. intros H. unfold check_results. by rewrite bool_decide_eq_true_2. Qed.

Lemma check_results_200 result body :
  status_code result = 200 →
  parsed result = Some (JDict body) →
  check_results result
  = (let errors := default (JList []) (dict_lookup "errors" body) in
     if truthy errors then
       items ← lift (iterate errors);
       for_each report items ;;
       count ← lift (len errors);
       raise (Exception (graphql_message count))
     else mret tt).
Proof.
  intros Hs Hp. unfold check_results.
  rewrite bool_decide_eq_false_2 by (rewrite Hs; naive_solver).
  unfold response_json. rewrite Hp, lift_bind.
  unfold get. by rewrite lift_bind.
Qed.

Lemma check_results_quiet result body :
  status_code result = 200 →
  parsed result = Some (JDict body) →
  dict_lookup "errors" body = None ∨ dict_lookup "errors" body = Some (JList []) →
  check_results result = ([], Return tt).
Proof.
  intros Hs Hp He. rewrite (check_results_200 _ _ Hs Hp).
  by destruct He as [-> | ->].
Qed.

Lemma check_results_loop result body errs :
  status_code result = 200 →
  parsed result = Some (JDict body) →
  dict_lookup "errors" body = Some (JList errs) →
  errs ≠ [] →
  check_results result
  = (for_each report errs ;;
     raise (Exception (graphql_message (Z.of_nat (length errs))))).
Proof.
  intros Hs Hp He Hne. rewrite (check_results_200 _ _ Hs Hp), He.
  cbv zeta. cbn [default from_option id truthy].
  rewrite bool_decide_eq_true_2 by done.
  unfold iterate, len. rewrite lift_bind. reflexivity.
Qed.

(** ** The failure message for a status other than 200 can be read back *)

Lemma split_at_dot s1 s2 t1 t2 :
  dotless s1 → dotless s2 →
  s1 +:+ String "." t1 = s2 +:+ String "." t2 → s1 = s2 ∧ t1 = t2.
Proof.
  revert s2. induction s1 as [|c s1 IH]; intros [|c' s2]; cbn.
  - by intros _ _ [= ->].
  - intros _ [Hc _] [= <- _]. done.
  - intros [Hc _] _ [= -> _]. done.
  - intros [_ H1] [_ H2] [= -> Heq]. destruct (IH _ H1 H2 Heq) as [-> ->]. done.
Qed.

Lemma pretty_N_char_dotless x : pretty_N_char x ≠ "."%char.
Proof. unfold pretty_N_char. by repeat case_match. Qed.

Lemma pretty_N_go_dotless x s : dotless s → dotless (pretty_N_go x s).
Proof.
  revert s. induction (N.lt_wf_0 x) as [x _ IH]; intros s Hs.
  assert (x = 0 ∨ 0 < x)%N as [->|?] by lia; [by rewrite pretty_N_go_0|].
  rewrite pretty_N_go_step by done. apply IH.
  - by apply N.div_lt.
  - split; [apply pretty_N_char_dotless|done].
Qed.

Lemma pretty_Z_dotless (n : Z) : dotless (pretty n).
Proof.
  assert (∀ p : positive, dotless (pretty p)) as Hpos.
  { intros p. unfold pretty, pretty_positive, pretty, pretty_N.
    case_decide; [done|]. by apply pretty_N_go_dotless. }
  destruct n as [|p|p]; unfold pretty, pretty_Z; [done|apply Hpos|].
  split; [done|apply Hpos].
Qed.

Lemma transport_message_inj code body code' body' :
  transport_message code body = transport_message code' body' →
  code = code' ∧ body = body'.
Proof.
  unfold transport_message. intros H%(inj (String.app _)).
  apply split_at_dot in H as [H1 H2]; [|apply pretty_Z_dotless..].
  split; [by apply (inj pretty)|by apply (inj (String.app newline))].
Qed.

(** ** The claims *)

(** C1.  For a response with status 200 whose body is a JSON object with an
    empty or absent [errors] list and a [data] field, [check_results]
    followed by [result.json()["data"]] prints nothing, raises nothing and
    yields that [data] value as it stands; so does a whole query cell whose
    transport hands back such a response. *)
Theorem read_data_returns_data result body data :
  status_code result = 200 →
  parsed result = Some (JDict body) →
  dict_lookup "errors" body = None ∨ dict_lookup "errors" body = Some (JList []) →
  dict_lookup "data" body = Some data →
  read_data result = ([], Return data)
  ∧ ∀ post api_key query_object,
      post (post_call api_key query_object) = Return result →
      run_query post api_key query_object = ([], Return data).
Proof.
  intros Hs Hp He Hd.
  assert (read_data result = ([], Return data)) as Hread.
  { unfold read_data. rewrite (check_results_quiet _ _ Hs Hp He).
    rewrite py_nil_bind. unfold response_json. rewrite Hp, lift_bind.
    unfold getitem. by rewrite Hd. }
  split; [done|]. intros post api_key q Hpost.
  unfold run_query. by rewrite Hpost, lift_bind.
Qed.

Lemma read_data_returns_data_witness :
  read_data (ok_response (JDict [("data", scenario_A); ("errors", JList [])]))
  = ([], Return scenario_A).
Proof.
  apply (read_data_returns_data
           (ok_response (JDict [("data", scenario_A); ("errors", JList [])]))
           [("data", scenario_A); ("errors", JList [])] scenario_A);
    [reflexivity|reflexivity|right; reflexivity|reflexivity].
Defined.

(** C2.  For a response whose status is not 200, [check_results] prints
    nothing and raises an exception whose message is made of the status
    code in decimal and the body text as received; both can be read back
    from the message. *)
Theorem check_results_transport_error result :
  status_code result ≠ 200 →
  check_results result
  = ([], Raise (Exception ("Request failed with code "
                           +:+ pretty (status_code result) +:+ "."
                           +:+ newline +:+ text result)))
  ∧ ∀ code body,
      transport_message code body
      = transport_message (status_code result) (text result) →
      code = status_code result ∧ body = text result.
Proof.
  intros H. split; [by apply check_results_not_200|].
  intros code body. apply transport_message_inj.
Qed.

Lemma check_results_transport_error_witness :
  status_code scenario_C ≠ 200
  ∧ check_results scenario_C
    = ([], Raise (Exception ("Request failed with code 403." +:+ newline
                             +:+ "Forbidden"))).
Proof.
  split; [by vm_compute|].
  apply (check_results_transport_error scenario_C). by vm_compute.
Defined.

(** C3, as amended.  For a response with status 200 whose [errors] list is
    not empty and holds only well-formed entries (an object with
    [message], [locations] as a list of objects with [line] and [column],
    [path] as a list of strings, and [extensions]), [check_results] prints
    the four lines of every entry in order and then raises the aggregate
    exception, whose count is the length of the list. *)
Theorem check_results_aggregate result body errs entries :
  status_code result = 200 →
  parsed result = Some (JDict body) →
  dict_lookup "errors" body = Some (JList errs) →
  errs ≠ [] →
  Forall2 describes entries errs →
  check_results result
  = (concat (rendering <$> entries),
     Raise (Exception ("GraphQL reported "
                       +:+ pretty (Z.of_nat (length errs)) +:+ " errors"))).
Proof.
  intros Hs Hp He Hne Hwf.
  rewrite (check_results_loop _ _ _ Hs Hp He Hne).
  rewrite (for_each_report _ _ Hwf), py_bind_return.
  cbn [fst snd raise]. by rewrite app_nil_r.
Qed.

Lemma describes_two_places : describes two_places entry_two_places.
Proof.
  eexists _, _. split; [reflexivity|]. repeat split.
  repeat constructor; eexists; repeat split.
Qed.

Lemma check_results_aggregate_witness :
  check_results (ok_response (JDict [("errors", JList [entry_two_places])]))
  = (["bad field:"; "  at line 3, col 5 and line 4, col 1";
      "  path fields.id"; "  {'code': 'INVALID'}"],
     Raise (Exception "GraphQL reported 1 errors")).
Proof.
  apply (check_results_aggregate
           (ok_response (JDict [("errors", JList [entry_two_places])]))
           [("errors", JList [entry_two_places])]
           [entry_two_places] [two_places]);
    [reflexivity|reflexivity|reflexivity|discriminate|].
  constructor; [apply describes_two_places|constructor].
Defined.

(** C3, as first stated, fails: with status 200 and one entry in [errors]
    that has no [locations], [check_results] raises [KeyError] for that key
    and not the aggregate exception, whatever its count. *)
Lemma check_results_aggregate_counterexample :
  status_code message_only = 200
  ∧ (∃ body errs, parsed message_only = Some (JDict body)
                  ∧ dict_lookup "errors" body = Some (JList errs)
                  ∧ length errs = 1%nat)
  ∧ check_results message_only
    = (["bad field:"], Raise (KeyError (Key "locations")))
  ∧ ∀ count, result_of (check_results message_only)
             ≠ Raise (Exception (graphql_message count)).
Proof.
  split; [reflexivity|]. split; [by eexists _, _|].
  split; [reflexivity|]. intros count. discriminate.
Qed.

(** C4, at the spec's scenario B.  The entry's path is
    ["fields", 0, "id"]: after the message line and the location line
    ("  at line 3, col 5") the join of the path raises [TypeError] on the
    integer segment, so neither a path line nor an extensions line is
    printed and the aggregate exception is not reached. *)
Theorem check_results_scenario_B :
  check_results scenario_B
  = (["bad field:"; "  at line 3, col 5"], Raise TypeError)
  ∧ "  path fields.0.id" ∉ stdout (check_results scenario_B).
Proof.
  split; [reflexivity|].
  intros Hin. cbv in Hin.
  apply list_elem_of_In in Hin. destruct Hin as [?|[?|[]]]; discriminate.
Qed.

(** C6.  With status 200, take any entry of [errors] that is an object
    lacking [locations], [path] or [extensions].  Then [check_results]
    never returns and never raises the aggregate exception: it ends in a
    lookup failure.  When the entries before it are well-formed and the
    entry is sound up to its first missing key, the failure is the
    [KeyError] of exactly that key, after the lines printed so far. *)
Theorem check_results_missing_key result body before d after :
  status_code result = 200 →
  parsed result = Some (JDict body) →
  dict_lookup "errors" body = Some (JList (before ++ JDict d :: after)) →
  lacks_key d →
  (∃ out e, check_results result = (out, Raise e) ∧ lookup_failure e)
  ∧ (∀ entries k shown,
       Forall2 describes entries before →
       stops_at d k shown →
       check_results result
       = (concat (rendering <$> entries) ++ shown, Raise (KeyError (Key k)))).
Proof.
  intros Hs Hp He Hd.
  assert (before ++ JDict d :: after ≠ []) as Hne by by destruct before.
  rewrite (check_results_loop _ _ _ Hs Hp He Hne). split.
  - pose proof (for_each_report_result (before ++ JDict d :: after)) as Hr.
    destruct (for_each report (before ++ JDict d :: after)) as [out [[]|e]].
    + cbn [result_of snd] in Hr.
      apply Forall_app in Hr as [_ Hr]. apply Forall_cons in Hr as [Hr _].
      destruct Hr as (d' & [= <-] & Hd'). done.
    + exists out, e. split; [done|]. exact Hr.
  - intros entries k shown Hwf Hstop.
    rewrite for_each_app, (for_each_report _ _ Hwf).
    cbn [for_each]. rewrite (report_stops _ _ _ Hstop).
    rewrite py_bind_raise, !py_bind_return. reflexivity.
Qed.

Lemma check_results_missing_key_witness :
  check_results
    (ok_response
       (JDict [("errors", JList [entry_two_places; JDict entry_without_path])]))
  = (["bad field:"; "  at line 3, col 5 and line 4, col 1";
      "  path fields.id"; "  {'code': 'INVALID'}";
      "bad field:"; "  at line 3, col 5"],
     Raise (KeyError (Key "path"))).
Proof.
  refine (proj2 (check_results_missing_key
           (ok_response
              (JDict [("errors", JList [entry_two_places; JDict entry_without_path])]))
           [("errors", JList [entry_two_places; JDict entry_without_path])]
           [entry_two_places] entry_without_path []
           eq_refl eq_refl eq_refl _) [two_places] "path" _ _ _).
  - right; left; reflexivity.
  - constructor; [apply describes_two_places|constructor].
  - apply (stops_at_path _ (JStr "bad field")
             [JDict [("line", JInt 3); ("column", JInt 5)]] [(JInt 3, JInt 5)]);
      [reflexivity|reflexivity| |reflexivity].
    repeat constructor. eexists; repeat split.
Defined.

(** C10.  For a response with status 200 whose body is a JSON object with
    an empty or absent [errors] list and no [data] key, [check_results]
    raises nothing, and the subscript [result.json()["data"]] that follows
    raises [KeyError] for ["data"]. *)
Theorem read_data_without_data result body :
  status_code result = 200 →
  parsed result = Some (JDict body) →
  dict_lookup "errors" body = None ∨ dict_lookup "errors" body = Some (JList []) →
  dict_lookup "data" body = None →
  check_results result = ([], Return tt)
  ∧ read_data result = ([], Raise (KeyError (Key "data"))).
Proof.
  intros Hs Hp He Hd.
  pose proof (check_results_quiet _ _ Hs Hp He) as Hc. split; [done|].
  unfold read_data. rewrite Hc, py_nil_bind.
  unfold response_json. rewrite Hp, lift_bind.
  unfold getitem. by rewrite Hd.
Qed.

Lemma read_data_without_data_witness :
  check_results (ok_response (JDict [("errors", JList [])])) = ([], Return tt)
  ∧ read_data (ok_response (JDict [("errors", JList [])]))
    = ([], Raise (KeyError (Key "data"))).
Proof.
  apply (read_data_without_data
           (ok_response (JDict [("errors", JList [])]))
           [("errors", JList [])]);
    [reflexivity|reflexivity|right; reflexivity|reflexivity].
Defined.

(** C5.  The three calls of the notebook all carry the dictionary
    [common_headers], and that dictionary holds exactly three entries: the
    subscription key under [OCP-APIM-Subscription-Key], and
    [application/json] under both [Accept] and [Content-Type]. *)
Theorem calls_share_headers api_key :
  calls api_key
  = [post_call api_key cost_query_object;
     post_call api_key registration_query_object;
     post_call api_key data_query_object]
  ∧ Forall (λ r, headers r = common_headers api_key) (calls api_key)
  ∧ ∀ name value,
      common_headers api_key !! name = Some value
      ↔ (name = "OCP-APIM-Subscription-Key" ∧ value = api_key)
        ∨ (name = "Accept" ∧ value = "application/json")
        ∨ (name = "Content-Type" ∧ value = "application/json").
Proof.
  split; [reflexivity|]. split; [by repeat constructor|].
  intros name value. unfold common_headers. split.
  - rewrite !lookup_insert. repeat case_decide; simplify_eq; naive_solver.
  - intros [[-> ->]|[[-> ->]|[-> ->]]]; by simplify_map_eq.
Qed.

(** C7.  The key is looked up in the environment under the name
    [API_KEY].  When the variable is set its value is the key, unchanged,
    it is what the subscription-key header carries, and nothing is asked
    of the user; the prompt is shown exactly when the variable is absent,
    and the key is then the stripped answer. *)
Theorem API_KEY_from_environment (environ : gmap string string) input :
  (∀ value, environ !! "API_KEY" = Some value →
            API_KEY environ input = (value, [])
            ∧ common_headers (API_KEY environ input).1
                !! "OCP-APIM-Subscription-Key" = Some value)
  ∧ ((API_KEY environ input).2 ≠ [] ↔ environ !! "API_KEY" = None)
  ∧ (environ !! "API_KEY" = None →
     API_KEY environ input = (strip (input key_prompt), [key_prompt])).
Proof.
  unfold API_KEY. split; [|split].
  - intros value ->. split; [done|]. by simplify_map_eq.
  - destruct (environ !! "API_KEY"); naive_solver.
  - by intros ->.
Qed.

Lemma API_KEY_from_environment_witness :
  API_KEY {["API_KEY" := " s3cret "]} (λ _, "typed") = (" s3cret ", []).
Proof.
  apply (API_KEY_from_environment {["API_KEY" := " s3cret "]} (λ _, "typed")).
  reflexivity.
Defined.

Lemma subscripts_cons v i path :
  subscripts v (i :: path) = getitem v i ≫= λ x, subscripts x path.
Proof.
  unfold subscripts. cbn [foldl mbind outcome_bind].
  destruct (getitem v i) as [x|e]; [done|].
  induction path as [|j path IH]; [done|]. exact IH.
Qed.

(** C8.  On the data of scenario A, the subscript chain
    ['account']['premiumData']['cropObservationRegistrationsCost'][0]['cost']
    of the cost cell yields the integer 0. *)
Theorem cost_scenario_A :
  cost scenario_A = Return (JInt 0)
  ∧ subscripts scenario_A
      [Key "account"; Key "premiumData";
       Key "cropObservationRegistrationsCost"; Idx 0; Key "cost"]
    = Return (JInt 0).
Proof. split; reflexivity. Qed.

(** ** Tables of uniform objects *)

Lemma mapM_as_dict (objects : list (list (string * json))) :
  mapM as_dict (JDict <$> objects) = Some objects.
Proof. apply mapM_Some. induction objects; by constructor. Qed.

Lemma filter_seen (seen l : list string) :
  l ⊆ seen → filter (λ k, k ∉ seen) l = [].
Proof.
  induction l as [|k l IH]; intros Hsub; [done|].
  rewrite filter_cons_False by (intros H; apply H, Hsub; left).
  apply IH. intros x Hx. apply Hsub. by right.
Qed.

Lemma filter_none_seen (l : list string) : filter (λ k, k ∉ []) l = l.
Proof.
  induction l as [|k l IH]; [done|].
  rewrite filter_cons_True by set_solver. by rewrite IH.
Qed.

Lemma all_keys_uniform keys (objects : list (list (string * json))) :
  objects ≠ [] →
  Forall (λ o, o.*1 = keys) objects →
  all_keys objects = keys.
Proof.
  assert (∀ l : list (list (string * json)),
            Forall (λ o, o.*1 = keys) l →
            foldl (λ seen o, seen ++ filter (λ k, k ∉ seen) o.*1) keys l = keys)
    as Hstable.
  { induction 1 as [|o l Ho _ IH]; [done|]. cbn [foldl].
    by rewrite Ho, filter_seen, app_nil_r. }
  intros Hne Hall. destruct Hall as [|o l Ho Hl]; [done|].
  unfold all_keys. cbn [foldl]. rewrite Ho, app_nil_l, filter_none_seen.
  by apply Hstable.
Qed.

Lemma dict_lookup_keys (o : list (string * json)) :
  NoDup o.*1 → (λ k, dict_lookup k o) <$> o.*1 = Some <$> o.*2.
Proof.
  induction o as [|[k v] o IH]; [done|]. cbn [fmap list_fmap fst snd].
  intros [Hk Hnd]%NoDup_cons. cbn [dict_lookup].
  rewrite decide_True by done. f_equal.
  rewrite <- (IH Hnd). apply list_fmap_ext.
  intros i k' Hk'. rewrite decide_False; [done|].
  intros ->. apply Hk. by eapply list_elem_of_lookup_2.
Qed.

(** C9.  An array of objects that all have the keys [keys], in that order,
    becomes a table with the columns [keys] in that order and one row per
    object in the order of the array, each row holding the object's values
    in key order.  In particular the array of scenario D gives two rows
    under the three columns unit, median, mean, and the last cell builds
    its table from the array found under the first field of the data. *)
Theorem DataFrame_uniform :
  (∀ (keys : list string) (objects : list (list (string * json))),
     NoDup keys →
     objects ≠ [] →
     Forall (λ o, o.*1 = keys) objects →
     DataFrame (JList (JDict <$> objects))
     = Some {| columns := keys; rows := (λ o, Some <$> o.*2) <$> objects |})
  ∧ DataFrame scenario_D
    = Some {| columns := ["unit"; "median"; "mean"];
              rows := [[Some (JStr "u1"); Some (JFloat "0.1"); Some (JFloat "0.2")];
                       [Some (JStr "u1"); Some (JFloat "0.3"); Some (JFloat "0.4")]] |}
  ∧ brown_vegetation_df data_D = Return (DataFrame scenario_D).
Proof.
  split; [|split; reflexivity].
  intros keys objects Hnd Hne Hall. unfold DataFrame.
  rewrite mapM_as_dict. cbn [mbind option_bind].
  rewrite (all_keys_uniform keys) by done. do 2 f_equal.
  apply list_fmap_ext. intros i o Ho.
  assert (o.*1 = keys) as <-.
  { eapply (proj1 (Forall_forall _ _) Hall). by eapply list_elem_of_lookup_2. }
  by apply dict_lookup_keys.
Qed.

Lemma DataFrame_uniform_witness :
  DataFrame
    (JList (JDict <$>
              [[("unit", JStr "u1"); ("median", JFloat "0.1"); ("mean", JFloat "0.2")];
               [("unit", JStr "u1"); ("median", JFloat "0.3"); ("mean", JFloat "0.4")]]))
  = Some {| columns := ["unit"; "median"; "mean"];
            rows := [[Some (JStr "u1"); Some (JFloat "0.1"); Some (JFloat "0.2")];
                     [Some (JStr "u1"); Some (JFloat "0.3"); Some (JFloat "0.4")]] |}.
Proof.
  apply (proj1 DataFrame_uniform ["unit"; "median"; "mean"]
           [[("unit", JStr "u1"); ("median", JFloat "0.1"); ("mean", JFloat "0.2")];
            [("unit", JStr "u1"); ("median", JFloat "0.3"); ("mean", JFloat "0.4")]]).
  - apply (bool_decide_unpack _). vm_compute. reflexivity.
  - discriminate.
  - repeat constructor.
Defined.

(** ** More on the effect layers *)

Lemma stdout_bind {A B} (m : py A) (f : A → py B) :
  stdout (m ≫= f)
  = stdout m ++ match result_of m with
                | Return a => stdout (f a)
                | Raise _ => []
                end.
Proof.
  destruct m as [out [a|e]]; [|by rewrite py_bind_raise, app_nil_r].
  by rewrite py_bind_return.
Qed.

Lemma py_eta {A} (m : py A) : m = (stdout m, result_of m).
Proof. by destruct m. Qed.

(** ** [check_results]: when it returns and what it raises *)

Lemma check_results_body result :
  status_code result = 200 →
  check_results result
  = (body ← lift (response_json result);
     errors ← lift (get body "errors" (JList []));
     if truthy errors then
       items ← lift (iterate errors);
       for_each report items ;;
       count ← lift (len errors);
       raise (Exception (graphql_message count))
     else mret tt).
Proof.
  intros Hs. unfold check_results.
  by rewrite bool_decide_eq_false_2 by (rewrite Hs; naive_solver).
Qed.

Lemma check_results_no_object result :
  status_code result = 200 →
  (∀ body, parsed result ≠ Some (JDict body)) →
  check_results result
  = ([], Raise (match parsed result with
                | None => JSONDecodeError
                | Some _ => AttributeError
                end)).
Proof.
  intros Hs Hp. rewrite (check_results_body _ Hs). unfold response_json.
  destruct (parsed result) as [v|]; [|done].
  rewrite lift_bind. destruct v; try done. by destruct (Hp entries).
Qed.

Lemma report_not_an_object v :
  (∀ d, v ≠ JDict d) → report v = ([], Raise TypeError).
Proof. intros Hv. destruct v; try done. by destruct (Hv entries). Qed.

Lemma check_results_no_list result body v :
  status_code result = 200 →
  parsed result = Some (JDict body) →
  dict_lookup "errors" body = Some v →
  truthy v = true →
  (∀ l, v ≠ JList l) →
  check_results result = ([], Raise TypeError).
Proof.
  intros Hs Hp He Ht Hv. rewrite (check_results_200 _ _ Hs Hp), He.
  cbv zeta. cbn [default from_option id]. rewrite Ht.
  destruct v as [| | | |s|l|d]; try done.
  - destruct s as [|c s]; [done|]. unfold iterate, chars.
    cbn [list_ascii_of_string fmap list_fmap]. rewrite lift_bind.
    cbn [for_each]. by rewrite report_not_an_object.
  - by destruct (Hv l).
  - destruct d as [|[k x] d]; [done|]. unfold iterate.
    cbn [fmap list_fmap]. rewrite lift_bind.
    cbn [for_each]. by rewrite report_not_an_object.
Qed.

Lemma errors_branch_raises errors (a : unit) :
  result_of (items ← lift (iterate errors);
             for_each report items ;;
             count ← lift (len errors);
             raise (Exception (graphql_message count)))
  ≠ Return a.
Proof.
  rewrite result_of_bind, result_of_lift.
  destruct (iterate errors) as [items|e]; [|done].
  rewrite result_of_bind.
  destruct (result_of (for_each report items)); [|done].
  rewrite result_of_bind, result_of_lift.
  by destruct (len errors).
Qed.

Ltac run_lift r x :=
  destruct r as [x|];
  [rewrite !lift_bind
  |rewrite !lift_raise; cbn [stdout result_of fst snd length]; lia].

Ltac run_print :=
  rewrite print_bind; cbn [stdout result_of fst snd].

(** The loop body prints four lines when it returns, fewer when it raises. *)
Lemma report_lines v :
  match result_of (report v) with
  | Return _ => length (stdout (report v)) = 4%nat
  | Raise _ => (length (stdout (report v)) < 4)%nat
  end.
Proof.
  unfold report.
  run_lift (getitem v (Key "message")) m. run_print.
  run_lift (getitem v (Key "locations")) l.
  run_lift (iterate l) ls.
  run_lift (collect location_text ls) texts. run_print.
  run_lift (getitem v (Key "path")) p.
  run_lift (join "." p) dotted. run_print.
  run_lift (getitem v (Key "extensions")) x.
  cbn. lia.
Qed.

Lemma for_each_report_lines errs :
  (length (stdout (for_each report errs)) ≤ 4 * length errs)%nat
  ∧ (result_of (for_each report errs) = Return tt →
     length (stdout (for_each report errs)) = (4 * length errs)%nat).
Proof.
  induction errs as [|v errs [IHle IHeq]]; [done|].
  cbn [for_each]. rewrite stdout_bind, result_of_bind, length_app.
  pose proof (report_lines v) as Hv.
  destruct (result_of (report v)) as [[]|e]; cbn [length].
  - split; [lia|]. intros H. rewrite (IHeq H). lia.
  - split; [lia|done].
Qed.

Lemma check_results_no_errors result body :
  status_code result = 200 →
  parsed result = Some (JDict body) →
  no_errors body →
  check_results result = ([], Return tt).
Proof.
  intros Hs Hp Hq. rewrite (check_results_200 _ _ Hs Hp).
  cbv zeta. unfold no_errors in Hq. by rewrite Hq.
Qed.

(** X1.  [check_results] returns exactly when the status is 200, the body
    is a JSON object, and its [errors] is absent or counts as false (an
    empty list, but also null, false, 0, an empty string or object); it has
    then printed nothing. *)
Theorem check_results_returns_iff result :
  (result_of (check_results result) = Return tt
   ↔ status_code result = 200
     ∧ ∃ body, parsed result = Some (JDict body) ∧ no_errors body)
  ∧ (result_of (check_results result) = Return tt →
     stdout (check_results result) = []).
Proof.
  assert (status_code result = 200
          ∧ (∃ body, parsed result = Some (JDict body) ∧ no_errors body)
          → check_results result = ([], Return tt)) as Hquiet.
  { intros (Hs & body & Hp & Hq). by apply (check_results_no_errors _ body). }
  assert (result_of (check_results result) = Return tt
          → status_code result = 200
            ∧ ∃ body, parsed result = Some (JDict body) ∧ no_errors body)
    as Hreturns.
  { destruct (decide (status_code result = 200)) as [Hs|Hs];
      [|by rewrite (check_results_not_200 _ Hs)].
    destruct (parsed result) as [[| | | | | |body]|] eqn:Hp;
      try (rewrite check_results_no_object by (by rewrite ?Hp); by rewrite Hp).
    rewrite (check_results_200 _ _ Hs Hp). cbv zeta.
    destruct (truthy _) eqn:Ht; [by intros ?%errors_branch_raises|].
    intros _. split; [done|]. by exists body. }
  split; [split; [done|]|].
  - intros H. by rewrite (Hquiet H).
  - intros H. by rewrite (Hquiet (Hreturns H)).
Qed.

(** X2.  With status 200, a body that is not JSON makes [check_results]
    raise the decoding error, and a JSON body that is not an object (a
    list, a string, null) makes it raise [AttributeError] from [.get];
    nothing is printed in either case. *)
Theorem check_results_not_an_object result :
  status_code result = 200 →
  (∀ body, parsed result ≠ Some (JDict body)) →
  check_results result
  = ([], Raise (match parsed result with
                | None => JSONDecodeError
                | Some _ => AttributeError
                end)).
Proof. apply check_results_no_object. Qed.

Lemma check_results_not_an_object_witness :
  check_results (ok_response (JList [])) = ([], Raise AttributeError).
Proof.
  apply (check_results_not_an_object (ok_response (JList [])));
    [reflexivity|discriminate].
Defined.

(** X3.  With status 200, an [errors] value that counts as true and is not
    a list (a string, a non-empty object, true, a non-zero number) makes
    [check_results] raise [TypeError] without printing anything: the
    aggregate exception is never reached. *)
Theorem check_results_errors_not_a_list result body v :
  status_code result = 200 →
  parsed result = Some (JDict body) →
  dict_lookup "errors" body = Some v →
  truthy v = true →
  (∀ l, v ≠ JList l) →
  check_results result = ([], Raise TypeError).
Proof. apply check_results_no_list. Qed.

Lemma check_results_errors_not_a_list_witness :
  check_results (ok_response (JDict [("errors", JStr "quota exceeded")]))
  = ([], Raise TypeError).
Proof.
  apply (check_results_errors_not_a_list
           (ok_response (JDict [("errors", JStr "quota exceeded")]))
           [("errors", JStr "quota exceeded")] (JStr "quota exceeded"));
    [reflexivity|reflexivity|reflexivity|reflexivity|discriminate].
Defined.

Lemma truthy_errors_present body :
  ¬ no_errors body →
  ∃ v, dict_lookup "errors" body = Some v ∧ truthy v = true.
Proof.
  unfold no_errors. destruct (dict_lookup "errors" body) as [v|]; [|done].
  cbn [default from_option id]. intros H. exists v.
  split; [done|]. by destruct (truthy v).
Qed.

(** X4.  When [check_results] raises a plain [Exception], it is one of
    two: the status was not 200, nothing was printed and the message is
    the transport message; or the status was 200, [errors] was a non-empty
    list whose entries all had the three keys, four lines were printed per
    entry, and the message reports the length of the list. *)
Theorem check_results_exception result msg :
  result_of (check_results result) = Raise (Exception msg) →
  (status_code result ≠ 200
   ∧ msg = transport_message (status_code result) (text result)
   ∧ stdout (check_results result) = [])
  ∨ (status_code result = 200
     ∧ ∃ body errs,
         parsed result = Some (JDict body)
         ∧ dict_lookup "errors" body = Some (JList errs)
         ∧ errs ≠ []
         ∧ Forall complete_entry errs
         ∧ msg = graphql_message (Z.of_nat (length errs))
         ∧ length (stdout (check_results result)) = (4 * length errs)%nat).
Proof.
  destruct (decide (status_code result = 200)) as [Hs|Hs].
  2:{ rewrite (check_results_not_200 _ Hs). intros [= <-]. by left. }
  intros H. right. split; [done|].
  destruct (parsed result) as [[| | | | | |body]|] eqn:Hp;
    try (rewrite check_results_no_object in H by (by rewrite ?Hp);
         by rewrite Hp in H).
  destruct (decide (no_errors body)) as [Hq|Hq].
  { by rewrite (check_results_no_errors _ _ Hs Hp Hq) in H. }
  destruct (truthy_errors_present _ Hq) as (v & He & Ht).
  assert ((∃ l, v = JList l) ∨ ∀ l, v ≠ JList l) as [[errs ->]|Hv]
    by (destruct v; eauto).
  2:{ by rewrite (check_results_no_list _ _ _ Hs Hp He Ht Hv) in H. }
  assert (errs ≠ []) as Hne by by destruct errs.
  exists body, errs. rewrite (check_results_loop _ _ _ Hs Hp He Hne) in H |- *.
  rewrite result_of_bind in H. rewrite stdout_bind.
  pose proof (for_each_report_result errs) as Hall.
  pose proof (proj2 (for_each_report_lines errs)) as Hlen.
  destruct (result_of (for_each report errs)) as [[]|e].
  - injection H as <-. rewrite length_app, Hlen by done.
    cbn [raise stdout fst length]. repeat split; try done.
  - injection H as ->. done.
Qed.

Lemma check_results_exception_witness :
  status_code scenario_C ≠ 200
  ∧ "Request failed with code 403." +:+ newline +:+ "Forbidden"
    = transport_message (status_code scenario_C) (text scenario_C).
Proof.
  destruct (check_results_exception scenario_C
              ("Request failed with code 403." +:+ newline +:+ "Forbidden")
              eq_refl) as [(H1 & H2 & _)|[H _]].
  - exact (conj H1 H2).
  - discriminate H.
Defined.

(** X5.  With status 200 and [errors] a list, [check_results] prints at
    most four lines per entry of the list. *)
Theorem check_results_output_bound result body errs :
  status_code result = 200 →
  parsed result = Some (JDict body) →
  dict_lookup "errors" body = Some (JList errs) →
  (length (stdout (check_results result)) ≤ 4 * length errs)%nat.
Proof.
  intros Hs Hp He. destruct errs as [|v errs].
  - by rewrite (check_results_quiet _ _ Hs Hp (or_intror He)).
  - rewrite (check_results_loop _ _ _ Hs Hp He) by done.
    rewrite stdout_bind, length_app.
    pose proof (proj1 (for_each_report_lines (v :: errs))).
    destruct (result_of _); cbn [raise stdout fst length] in *; lia.
Qed.

Lemma check_results_output_bound_witness :
  (length (stdout (check_results scenario_B)) ≤ 4 * 1)%nat.
Proof.
  apply (check_results_output_bound scenario_B
           [("errors", JList [error_B])] [error_B]); reflexivity.
Defined.

(** ** The two statements after each call *)

Lemma read_data_result result :
  result_of (read_data result)
  = match result_of (check_results result) with
    | Return _ => response_json result ≫= λ body, getitem body (Key "data")
    | Raise e => Raise e
    end.
Proof.
  unfold read_data. rewrite result_of_bind.
  destruct (result_of (check_results result)); [|done].
  rewrite result_of_bind, result_of_lift.
  by destruct (response_json result).
Qed.

Lemma read_data_stdout result :
  stdout (read_data result) = stdout (check_results result).
Proof.
  unfold read_data. rewrite stdout_bind.
  destruct (result_of (check_results result)); [|by rewrite app_nil_r].
  rewrite stdout_bind. cbn [lift stdout fst app].
  destruct (result_of _); by rewrite app_nil_r.
Qed.

(** X6.  The two statements after a call yield [data] exactly when the
    status is 200 and the body is a JSON object that has [data] under the
    key "data" and no [errors] (or a value there that counts as false);
    they have then printed nothing. *)
Theorem read_data_returns_iff result data :
  (result_of (read_data result) = Return data
   ↔ status_code result = 200
     ∧ ∃ body, parsed result = Some (JDict body)
               ∧ no_errors body
               ∧ dict_lookup "data" body = Some data)
  ∧ (result_of (read_data result) = Return data →
     stdout (read_data result) = []).
Proof.
  assert (result_of (read_data result) = Return data
          → status_code result = 200
            ∧ ∃ body, parsed result = Some (JDict body)
                      ∧ no_errors body
                      ∧ dict_lookup "data" body = Some data) as Hreturns.
  { rewrite read_data_result.
    destruct (decide (status_code result = 200)) as [Hs|Hs];
      [|by rewrite (check_results_not_200 _ Hs)].
    destruct (parsed result) as [[| | | | | |body]|] eqn:Hp;
      try (rewrite check_results_no_object by (by rewrite ?Hp); by rewrite Hp).
    destruct (decide (no_errors body)) as [Hq|Hq].
    - rewrite (check_results_no_errors _ _ Hs Hp Hq).
      unfold response_json. rewrite Hp. cbn [result_of snd mbind outcome_bind getitem].
      destruct (dict_lookup "data" body) as [x|] eqn:Hd; [|done].
      intros [= ->]. eauto.
    - rewrite (check_results_200 _ _ Hs Hp). cbv zeta.
      unfold no_errors in Hq. destruct (truthy _); [|done].
      pose proof (errors_branch_raises
                    (default (JList []) (dict_lookup "errors" body)) tt) as Hr.
      by destruct (result_of _) as [[]|]. }
  split; [split; [done|]|].
  - intros (Hs & body & Hp & Hq & Hd). rewrite read_data_result.
    rewrite (check_results_no_errors _ _ Hs Hp Hq).
    unfold response_json. rewrite Hp. cbn. by rewrite Hd.
  - intros (Hs & body & Hp & Hq & _)%Hreturns.
    by rewrite read_data_stdout, (check_results_no_errors _ _ Hs Hp Hq).
Qed.

(** X7.  A reply that carries both [data] and a non-empty [errors] (a
    partial success) never yields its data: with status 200 and an
    [errors] value that counts as true, the two statements after the call
    raise, whatever is stored under "data". *)
Theorem read_data_partial_success result body :
  status_code result = 200 →
  parsed result = Some (JDict body) →
  ¬ no_errors body →
  ∃ e, result_of (read_data result) = Raise e
       ∧ result_of (check_results result) = Raise e.
Proof.
  intros Hs Hp Hq. rewrite read_data_result.
  rewrite (check_results_200 _ _ Hs Hp). cbv zeta.
  unfold no_errors in Hq. destruct (truthy _); [|done].
  pose proof (errors_branch_raises
                (default (JList []) (dict_lookup "errors" body)) tt) as Hr.
  destruct (result_of _) as [[]|e]; [done|]. by exists e.
Qed.

Lemma read_data_partial_success_witness :
  ∃ e, result_of (read_data
                    (ok_response (JDict [("data", scenario_A);
                                         ("errors", JList [entry_two_places])])))
       = Raise e
     ∧ result_of (check_results
                    (ok_response (JDict [("data", scenario_A);
                                         ("errors", JList [entry_two_places])])))
       = Raise e.
Proof.
  apply (read_data_partial_success
           (ok_response (JDict [("data", scenario_A);
                                ("errors", JList [entry_two_places])]))
           [("data", scenario_A); ("errors", JList [entry_two_places])]);
    [reflexivity|reflexivity|discriminate].
Defined.

(** ** Entries that make the loop body fail *)

Lemma check_results_first_failure result body before bad after entries out e :
  status_code result = 200 →
  parsed result = Some (JDict body) →
  dict_lookup "errors" body = Some (JList (before ++ bad :: after)) →
  Forall2 describes entries before →
  report bad = (out, Raise e) →
  check_results result = (concat (rendering <$> entries) ++ out, Raise e).
Proof.
  intros Hs Hp He Hwf Hbad.
  rewrite (check_results_loop _ _ _ Hs Hp He) by by destruct before.
  rewrite for_each_app, (for_each_report _ _ Hwf).
  cbn [for_each]. rewrite Hbad, py_bind_raise, !py_bind_return. reflexivity.
Qed.

Lemma collect_as_str_not_strings items :
  ¬ Forall is_str items → collect as_str items = Raise TypeError.
Proof.
  induction items as [|v items IH]; intros Hns; [by destruct Hns|].
  cbn [collect]. destruct v; try done.
  cbn [as_str mbind outcome_bind]. rewrite IH; [done|].
  intros H. apply Hns. constructor; [by eexists|done].
Qed.

Lemma join_not_strings sep items :
  ¬ Forall is_str items → join sep (JList items) = Raise TypeError.
Proof.
  intros Hns. unfold join, iterate. cbn [mbind outcome_bind].
  by rewrite (collect_as_str_not_strings _ Hns).
Qed.

Lemma report_path_fails d m ls locs items :
  dict_lookup "message" d = Some m →
  dict_lookup "locations" d = Some (JList ls) →
  Forall2 is_location ls locs →
  dict_lookup "path" d = Some (JList items) →
  ¬ Forall is_str items →
  report (JDict d) = ([message_line m; at_line locs], Raise TypeError).
Proof.
  intros Hm Hl Hlocs Hp Hns. unfold report, getitem. rewrite Hm, Hl, Hp.
  rewrite lift_bind, print_bind, lift_bind. unfold iterate.
  rewrite lift_bind, (collect_location_text _ _ Hlocs), lift_bind, print_bind.
  rewrite lift_bind, (join_not_strings _ _ Hns). reflexivity.
Qed.

Lemma collect_location_text_fails good locs l k rest :
  Forall2 is_location good locs →
  missing_coordinate l k →
  collect location_text (good ++ JDict l :: rest) = Raise (KeyError (Key k)).
Proof.
  intros Hgood Hl. induction Hgood as [|loc lc good locs Hloc _ IH].
  - cbn [app collect]. unfold location_text, getitem.
    destruct Hl as [[Hline ->]|([x Hline] & Hcol & ->)]; rewrite Hline; [done|].
    cbn [mbind outcome_bind]. by rewrite Hcol.
  - cbn [app collect]. rewrite (location_text_ok _ _ Hloc).
    cbn [mbind outcome_bind]. by rewrite IH.
Qed.

(** X8.  The loop stops at the first entry on which its body fails: the
    well-formed entries before it are printed in full, then what the body
    printed for the failing entry, and the body's exception leaves
    [check_results]; the entries after it are neither printed nor counted. *)
Theorem check_results_stops_at_first_failure
    result body before bad after entries out e :
  status_code result = 200 →
  parsed result = Some (JDict body) →
  dict_lookup "errors" body = Some (JList (before ++ bad :: after)) →
  Forall2 describes entries before →
  report bad = (out, Raise e) →
  check_results result = (concat (rendering <$> entries) ++ out, Raise e)
  ∧ ∀ result' body' after',
      status_code result' = 200 →
      parsed result' = Some (JDict body') →
      dict_lookup "errors" body' = Some (JList (before ++ bad :: after')) →
      check_results result' = check_results result.
Proof.
  intros Hs Hp He Hwf Hbad.
  rewrite (check_results_first_failure _ _ _ _ _ _ _ _ Hs Hp He Hwf Hbad).
  split; [done|]. intros result' body' after' Hs' Hp' He'.
  by apply (check_results_first_failure _ body' before bad after').
Qed.

Lemma check_results_stops_at_first_failure_witness :
  check_results
    (ok_response
       (JDict [("errors", JList [entry_two_places; error_B; entry_two_places])]))
  = (["bad field:"; "  at line 3, col 5 and line 4, col 1";
      "  path fields.id"; "  {'code': 'INVALID'}";
      "bad field:"; "  at line 3, col 5"],
     Raise TypeError).
Proof.
  refine (proj1 (check_results_stops_at_first_failure
           (ok_response
              (JDict [("errors",
                       JList [entry_two_places; error_B; entry_two_places])]))
           [("errors", JList [entry_two_places; error_B; entry_two_places])]
           [entry_two_places] error_B [entry_two_places] [two_places]
           ["bad field:"; "  at line 3, col 5"] TypeError
           eq_refl eq_refl eq_refl _ eq_refl)).
  constructor; [apply describes_two_places|constructor].
Defined.

(** X9.  An entry whose [path] is a list with a segment that is not a
    string (the integer index of a list element, say) makes the loop body
    raise [TypeError] from the join, after the message line and the
    location line and before any path or extensions line. *)
Theorem report_path_not_strings d m ls locs items :
  dict_lookup "message" d = Some m →
  dict_lookup "locations" d = Some (JList ls) →
  Forall2 is_location ls locs →
  dict_lookup "path" d = Some (JList items) →
  ¬ Forall is_str items →
  report (JDict d) = ([message_line m; at_line locs], Raise TypeError).
Proof. apply report_path_fails. Qed.

Lemma report_path_not_strings_witness :
  report error_B = (["bad field:"; "  at line 3, col 5"], Raise TypeError).
Proof.
  apply (report_path_not_strings
           [("message", JStr "bad field");
            ("locations", JList [JDict [("line", JInt 3); ("column", JInt 5)]]);
            ("path", JList [JStr "fields"; JInt 0; JStr "id"]);
            ("extensions", JDict [("code", JStr "INVALID")])]
           (JStr "bad field")
           [JDict [("line", JInt 3); ("column", JInt 5)]] [(JInt 3, JInt 5)]
           [JStr "fields"; JInt 0; JStr "id"]);
    [reflexivity|reflexivity| |reflexivity|].
  - repeat constructor. eexists; repeat split.
  - intros H. apply Forall_cons in H as [_ H]. apply Forall_cons in H as [[s Hs] _].
    discriminate Hs.
Defined.

(** X10.  An entry with a location object that lacks [line], or has it and
    lacks [column], makes the loop body raise [KeyError] for that key; only
    the message line has been printed, no part of the location line. *)
Theorem report_location_incomplete d m good locs l k rest :
  dict_lookup "message" d = Some m →
  dict_lookup "locations" d = Some (JList (good ++ JDict l :: rest)) →
  Forall2 is_location good locs →
  missing_coordinate l k →
  report (JDict d) = ([message_line m], Raise (KeyError (Key k))).
Proof.
  intros Hm Hl Hgood Hk. unfold report, getitem. rewrite Hm, Hl.
  rewrite lift_bind, print_bind, lift_bind. unfold iterate.
  rewrite lift_bind. by rewrite (collect_location_text_fails _ _ _ _ _ Hgood Hk).
Qed.

Lemma report_location_incomplete_witness :
  report (JDict [("message", JStr "bad field");
                 ("locations", JList [JDict [("line", JInt 3); ("column", JInt 5)];
                                      JDict [("line", JInt 4)]])])
  = (["bad field:"], Raise (KeyError (Key "column"))).
Proof.
  apply (report_location_incomplete
           [("message", JStr "bad field");
            ("locations", JList [JDict [("line", JInt 3); ("column", JInt 5)];
                                 JDict [("line", JInt 4)]])]
           (JStr "bad field")
           [JDict [("line", JInt 3); ("column", JInt 5)]] [(JInt 3, JInt 5)]
           [("line", JInt 4)] "column" []);
    [reflexivity|reflexivity| |].
  - repeat constructor. eexists; repeat split.
  - right. repeat split. by eexists.
Defined.

(** ** Subscript chains *)

Lemma subscripts_raise e path :
  foldl (λ acc i, acc ≫= (λ x, getitem x i)) (Raise e) path = Raise e.
Proof. by induction path. Qed.

Lemma subscripts_app v p q :
  subscripts v (p ++ q) = subscripts v p ≫= λ x, subscripts x q.
Proof.
  unfold subscripts. rewrite foldl_app.
  destruct (foldl _ (Return v) p) as [x|e]; [done|].
  apply subscripts_raise.
Qed.

Lemma getitem_key_return v k x :
  getitem v (Key k) = Return x ↔ ∃ d, v = JDict d ∧ dict_lookup k d = Some x.
Proof.
  split.
  - destruct v; try done. cbn [getitem].
    destruct (dict_lookup k entries) eqn:H; [|done]. intros [= ->]. eauto.
  - intros (d & -> & H). cbn [getitem]. by rewrite H.
Qed.

Lemma getitem_first_object v r :
  getitem v (Idx 0) = Return (JDict r) ↔ ∃ rest, v = JList (JDict r :: rest).
Proof.
  split.
  - destruct v as [| | | |s|l|d]; try done.
    + cbn [getitem]. destruct s as [|c s]; [done|].
      unfold position. rewrite decide_True by (cbn; lia). done.
    + destruct l as [|x l]; [done|]. cbn [getitem].
      unfold position. rewrite decide_True by (cbn [length]; lia).
      cbn. intros [= ->]. eauto.
  - intros [rest ->]. cbn [getitem]. unfold position.
    by rewrite decide_True by (cbn [length]; lia).
Qed.

(** A chain [data[k1][k2][k3][0][k4]] returns exactly on nested objects
    whose innermost list starts with an object that has [k4]. *)
Lemma first_of_nested k1 k2 k3 k4 data c :
  subscripts data [Key k1; Key k2; Key k3; Idx 0; Key k4] = Return c
  ↔ ∃ d a p r rest,
      data = JDict d
      ∧ dict_lookup k1 d = Some (JDict a)
      ∧ dict_lookup k2 a = Some (JDict p)
      ∧ dict_lookup k3 p = Some (JList (JDict r :: rest))
      ∧ dict_lookup k4 r = Some c.
Proof.
  rewrite !subscripts_cons. split.
  - destruct (getitem data (Key k1)) as [x1|] eqn:H1; [|done].
    cbn [mbind outcome_bind]. rewrite !subscripts_cons.
    destruct (getitem x1 (Key k2)) as [x2|] eqn:H2; [|done].
    cbn [mbind outcome_bind]. rewrite !subscripts_cons.
    destruct (getitem x2 (Key k3)) as [x3|] eqn:H3; [|done].
    cbn [mbind outcome_bind]. rewrite !subscripts_cons.
    destruct (getitem x3 (Idx 0)) as [x4|] eqn:H4; [|done].
    cbn [mbind outcome_bind]. rewrite !subscripts_cons.
    destruct (getitem x4 (Key k4)) as [x5|] eqn:H5; [|done].
    cbn. intros [= ->].
    apply getitem_key_return in H5 as (r & -> & H5).
    apply getitem_first_object in H4 as (rest & ->).
    apply getitem_key_return in H3 as (p & -> & H3).
    apply getitem_key_return in H2 as (a & -> & H2).
    apply getitem_key_return in H1 as (d & -> & H1).
    by exists d, a, p, r, rest.
  - intros (d & a & p & r & rest & -> & H1 & H2 & H3 & H4).
    cbn [getitem]. rewrite H1. cbn [mbind outcome_bind].
    rewrite !subscripts_cons. cbn [getitem]. rewrite H2. cbn [mbind outcome_bind].
    rewrite !subscripts_cons. cbn [getitem]. rewrite H3. cbn [mbind outcome_bind].
    rewrite !subscripts_cons.
    rewrite (proj2 (getitem_first_object _ r)) by eauto. cbn [mbind outcome_bind].
    rewrite !subscripts_cons. cbn [getitem]. by rewrite H4.
Qed.

(** X11.  The cost cell returns [c] exactly when [data] is an object
    holding, under account, premiumData and
    cropObservationRegistrationsCost, a list whose first element is an
    object with [c] under "cost"; the later elements of the list play no
    part. *)
Theorem cost_returns_iff data c :
  cost data = Return c
  ↔ ∃ d a p r rest,
      data = JDict d
      ∧ dict_lookup "account" d = Some (JDict a)
      ∧ dict_lookup "premiumData" a = Some (JDict p)
      ∧ dict_lookup "cropObservationRegistrationsCost" p
        = Some (JList (JDict r :: rest))
      ∧ dict_lookup "cost" r = Some c.
Proof. apply first_of_nested. Qed.

(** X12.  The registration cell returns [id] exactly when [data] is an
    object holding, under account, premiumData and
    addCropObservationRegistrations, a list whose first element is an
    object with [id] under "id". *)
Theorem registrationID_returns_iff data id :
  registrationID data = Return id
  ↔ ∃ d a p r rest,
      data = JDict d
      ∧ dict_lookup "account" d = Some (JDict a)
      ∧ dict_lookup "premiumData" a = Some (JDict p)
      ∧ dict_lookup "addCropObservationRegistrations" p
        = Some (JList (JDict r :: rest))
      ∧ dict_lookup "id" r = Some id.
Proof. apply first_of_nested. Qed.

(** X13.  A subscript that fails ends the chain with its own exception,
    whatever subscripts follow it.  So the cost cell raises [TypeError] on
    data that is not an object (null, say), [IndexError] on an empty list
    of registrations, and [KeyError] for "cost" when the first registration
    has no cost. *)
Theorem subscripts_stops v p x i e q :
  subscripts v p = Return x →
  getitem x i = Raise e →
  subscripts v (p ++ i :: q) = Raise e.
Proof.
  intros Hp Hi. rewrite subscripts_app, Hp. cbn [mbind outcome_bind].
  rewrite subscripts_cons, Hi. reflexivity.
Qed.

Lemma subscripts_stops_witness :
  cost (JDict [("account",
                JDict [("premiumData",
                        JDict [("cropObservationRegistrationsCost", JList [])])])])
  = Raise IndexError.
Proof.
  apply (subscripts_stops
           (JDict [("account",
                    JDict [("premiumData",
                            JDict [("cropObservationRegistrationsCost", JList [])])])])
           [Key "account"; Key "premiumData"; Key "cropObservationRegistrationsCost"]
           (JList []) (Idx 0) IndexError [Key "cost"]);
    reflexivity.
Defined.

Lemma brown_vegetation_chain data :
  brown_vegetation data
  = subscripts data [Key "fields"; Idx 0; Key "cropObservations";
                     Key "brownVegetationCoverFraction"].
Proof.
  unfold brown_vegetation.
  exact (eq_sym (subscripts_app data [Key "fields"; Idx 0]
                   [Key "cropObservations"; Key "brownVegetationCoverFraction"])).
Qed.

(** X14.  The last cell finds its array exactly when [data] is an object
    whose "fields" is a list starting with an object that holds, under
    cropObservations, an object with the array under
    brownVegetationCoverFraction; only the first field is read. *)
Theorem brown_vegetation_returns_iff data v :
  brown_vegetation data = Return v
  ↔ ∃ d f rest c,
      data = JDict d
      ∧ dict_lookup "fields" d = Some (JList (JDict f :: rest))
      ∧ dict_lookup "cropObservations" f = Some (JDict c)
      ∧ dict_lookup "brownVegetationCoverFraction" c = Some v.
Proof.
  rewrite brown_vegetation_chain, !subscripts_cons. split.
  - destruct (getitem data (Key "fields")) as [x1|] eqn:H1; [|done].
    cbn [mbind outcome_bind]. rewrite !subscripts_cons.
    destruct (getitem x1 (Idx 0)) as [x2|] eqn:H2; [|done].
    cbn [mbind outcome_bind]. rewrite !subscripts_cons.
    destruct (getitem x2 (Key "cropObservations")) as [x3|] eqn:H3; [|done].
    cbn [mbind outcome_bind]. rewrite !subscripts_cons.
    destruct (getitem x3 _) as [x4|] eqn:H4; [|done].
    cbn. intros [= ->].
    apply getitem_key_return in H4 as (c & -> & H4).
    apply getitem_key_return in H3 as (f & -> & H3).
    apply getitem_first_object in H2 as (rest & ->).
    apply getitem_key_return in H1 as (d & -> & H1).
    by exists d, f, rest, c.
  - intros (d & f & rest & c & -> & H1 & H2 & H3).
    cbn [getitem]. rewrite H1. cbn [mbind outcome_bind]. rewrite !subscripts_cons.
    rewrite (proj2 (getitem_first_object _ f)) by eauto.
    cbn [mbind outcome_bind]. rewrite !subscripts_cons.
    cbn [getitem]. rewrite H2. cbn [mbind outcome_bind].
    rewrite !subscripts_cons. cbn [getitem]. by rewrite H3.
Qed.

(** ** The key typed at the prompt *)

Lemma rev_reverse {A} (l : list A) : rev l = reverse l.
Proof. unfold reverse. apply rev_alt. Qed.

Lemma lstrip_split cs :
  ∃ pre, cs = pre ++ lstrip cs ∧ Forall (λ c, whitespace c = true) pre.
Proof.
  induction cs as [|c cs (pre & IH & Hpre)]; [by exists []|].
  cbn [lstrip]. destruct (whitespace c) eqn:Hc.
  - exists (c :: pre). split; [cbn [app]; by rewrite <- IH|by constructor].
  - by exists [].
Qed.

Lemma lstrip_head cs c : head (lstrip cs) = Some c → whitespace c = false.
Proof.
  induction cs as [|c' cs IH]; [done|]. cbn [lstrip].
  destruct (whitespace c') eqn:Hc; [done|]. by intros [= <-].
Qed.

Lemma lstrip_id cs :
  (∀ c, head cs = Some c → whitespace c = false) → lstrip cs = cs.
Proof. destruct cs as [|c cs]; [done|]. intros H. cbn. by rewrite H. Qed.

Lemma lstrip_whitespace cs :
  Forall (λ c, whitespace c = true) cs → lstrip cs = [].
Proof. induction 1 as [|c cs Hc _ IH]; [done|]. cbn. by rewrite Hc. Qed.

Lemma strip_chars s :
  list_ascii_of_string (strip s)
  = rev (lstrip (rev (lstrip (list_ascii_of_string s)))).
Proof. unfold strip. apply list_ascii_of_string_of_list_ascii. Qed.

Lemma strip_trimmed s : trimmed (list_ascii_of_string (strip s)).
Proof.
  rewrite strip_chars. set (l1 := lstrip (list_ascii_of_string s)).
  destruct (lstrip_split (rev l1)) as (pre & Hsplit & _).
  split; intros c Hc.
  - apply (lstrip_head (list_ascii_of_string s)). fold l1.
    rewrite <- (rev_involutive l1), Hsplit, rev_app_distr.
    rewrite rev_reverse in Hc. apply head_Some in Hc as [l' Hl'].
    by rewrite rev_reverse, Hl'.
  - rewrite rev_reverse, last_reverse in Hc. by apply lstrip_head in Hc.
Qed.

Lemma strip_fixed s : trimmed (list_ascii_of_string s) → strip s = s.
Proof.
  intros [Hhead Hlast]. unfold strip.
  rewrite (lstrip_id (list_ascii_of_string s)) by done.
  rewrite lstrip_id, rev_involutive; [apply string_of_list_ascii_of_string|].
  intros c. rewrite rev_reverse, head_reverse. apply Hlast.
Qed.

(** X15.  [strip] leaves a text unchanged exactly when it has no
    whitespace character at either end; its result is always such a text,
    so stripping twice is stripping once. *)
Theorem strip_fixed_iff s :
  (strip s = s ↔ trimmed (list_ascii_of_string s))
  ∧ trimmed (list_ascii_of_string (strip s))
  ∧ strip (strip s) = strip s.
Proof.
  split; [split|split].
  - intros <-. apply strip_trimmed.
  - apply strip_fixed.
  - apply strip_trimmed.
  - apply strip_fixed, strip_trimmed.
Qed.

(** X16.  When the environment has no [API_KEY], the key is what the user
    typed at the prompt with the whitespace at both ends removed: it never
    begins or ends with whitespace, it is the answer itself when the
    answer had none there, and it is the empty text, still placed in the
    subscription-key header, when the answer was nothing but whitespace. *)
Theorem API_KEY_prompted (environ : gmap string string) input :
  environ !! "API_KEY" = None →
  let key := (API_KEY environ input).1 in
  trimmed (list_ascii_of_string key)
  ∧ (trimmed (list_ascii_of_string (input key_prompt)) → key = input key_prompt)
  ∧ (Forall (λ c, whitespace c = true) (list_ascii_of_string (input key_prompt)) →
     key = ""
     ∧ common_headers key !! "OCP-APIM-Subscription-Key" = Some "").
Proof.
  intros Henv. unfold API_KEY. rewrite Henv. cbn [fst].
  split; [apply strip_trimmed|]. split; [apply strip_fixed|].
  intros Hws. assert (strip (input key_prompt) = "") as ->.
  { unfold strip. by rewrite (lstrip_whitespace _ Hws). }
  split; [done|]. by simplify_map_eq.
Qed.

Lemma API_KEY_prompted_witness :
  (API_KEY ∅ (λ _, "  s3cret" +:+ newline)).1 = "s3cret"
  ∧ trimmed (list_ascii_of_string (API_KEY ∅ (λ _, "  s3cret" +:+ newline)).1).
Proof.
  split; [reflexivity|].
  apply (API_KEY_prompted ∅ (λ _, "  s3cret" +:+ newline)). reflexivity.
Defined.
